(** * The SCS session adapter for Gin: model and properties

    The adapter (scs_gin_adapter.go) is a thin layer that sequences calls into
    two collaborators: the SCS session manager and the Gin request/response
    exchange object.  The model keeps the collaborators abstract (a record of
    operations over an opaque session-manager state) and writes every adapter
    method as a computation in a small state monad over the per-request world:
    the session manager's state, the Gin context, and the log of collaborator
    calls made so far. *)

From Stdlib Require Import String List Bool.
From stdpp Require Import base option list gmap strings pretty.


(** ** net/http: headers, cookies, requests, response writers *)

Module Http.

(** [http.Header] is [map[string][]string]. *)
Abbreviation Header := (gmap string (list string)).

(** [h.Add(key, value)] appends [value] to the values stored under [key].
    The adapter only uses keys that are already in canonical MIME form. *)
Definition Header_Add (key value : string) (h : Header) : Header :=
  <[key := default [] (h !! key) ++ [value]]> h.

Record Cookie := { Name : string; Value : string }.

Record Request (Ctx : Type) := {
  reqContext : Ctx;
  Cookies : list Cookie
}.
Arguments reqContext {Ctx} _.
Arguments Cookies {Ctx} _.

(** [r.Cookie(name)]: the first cookie of that name, [None] standing for
    [http.ErrNoCookie]. *)
Definition Request_Cookie {Ctx} (r : Request Ctx) (name : string) : option Cookie :=
  List.find (fun c => String.eqb (Name c) name) (Cookies r).

(** [r.WithContext(ctx)]: a shallow copy of [r] with its context changed. *)
Definition WithContext {Ctx} (r : Request Ctx) (ctx : Ctx) : Request Ctx :=
  {| reqContext := ctx; Cookies := Cookies r |}.

Record ResponseWriter := {
  header : gmap string (list string);
  statusCode : option nat;
  body : string
}.

Definition writer_Header_Add (key value : string) (w : ResponseWriter) : ResponseWriter :=
  {| header := Header_Add key value (header w); statusCode := statusCode w; body := body w |}.

End Http.

Import Http.

(** ** Collaborators and the per-request world *)

Section Adapter.

(** Opaque collaborator types: [context.Context], [interface{}] session
    values, non-nil [error] values, [time.Time], and the session manager's
    mutable state (the store together with the session data that loaded
    contexts point to). *)
Context {Ctx Val Err Time S : Type}.

(** [time.Time{}], the zero time. *)
Variable zeroTime : Time.

(** The part of [scs.SessionManager] the adapter consumes.  A Go [error]
    result is an [option Err], [None] being [nil].  Every operation on the
    session may change the manager's state; the cookie-writing routine reads
    that state and acts on the response writer, and so does the error
    handler. *)
Record SessionManager := {
  Cookie_Name : string;
  sm_Load : Ctx -> string -> S -> (Ctx * option Err) * S;
  sm_Commit : Ctx -> S -> (string * Time * option Err) * S;
  sm_Put : Ctx -> string -> Val -> S -> unit * S;
  sm_Get : Ctx -> string -> S -> Val * S;
  sm_GetString : Ctx -> string -> S -> string * S;
  sm_Remove : Ctx -> string -> S -> unit * S;
  sm_Destroy : Ctx -> S -> option Err * S;
  sm_RenewToken : Ctx -> S -> option Err * S;
  sm_RememberMe : Ctx -> bool -> S -> unit * S;
  sm_WriteSessionCookie : Ctx -> ResponseWriter -> string -> Time -> S -> ResponseWriter;
  ErrorFunc : ResponseWriter -> Request Ctx -> Err -> ResponseWriter
}.

(** [gin.Context], as far as the adapter touches it. *)
Record GinContext := {
  Writer : ResponseWriter;
  Request : Http.Request Ctx
}.

(** Collaborator calls, with the results they returned. *)
Inductive Call :=
| CLoad (c : Ctx) (token : string) (r : Ctx * option Err)
| CCommit (c : Ctx) (r : string * Time * option Err)
| CPut (c : Ctx) (key : string) (val : Val)
| CGet (c : Ctx) (key : string) (r : Val)
| CGetString (c : Ctx) (key : string) (r : string)
| CRemove (c : Ctx) (key : string)
| CDestroy (c : Ctx) (r : option Err)
| CRenewToken (c : Ctx) (r : option Err)
| CRememberMe (c : Ctx) (val : bool)
| CWriteSessionCookie (c : Ctx) (token : string) (expiry : Time)
| CErrorFunc (req : Http.Request Ctx) (e : Err)
| CHeaderAdd (key value : string)
| CNext.

Record World := {
  session : S;
  gin : GinContext;
  calls : list Call
}.

(** *** The state monad of a request *)

Definition M (A : Type) : Type := World -> A * World.

#[global] Instance M_ret : MRet M := fun A a w => (a, w).
#[global] Instance M_bind : MBind M :=
  fun A B f m w => let (a, w') := m w in f a w'.

(** A call on the session manager: run the operation on its state and log
    the call with its result. *)
Definition smCall {A} (op : S -> A * S) (ev : A -> Call) : M A :=
  fun w =>
    let (r, s') := op (session w) in
    (r, {| session := s'; gin := gin w; calls := calls w ++ [ev r] |}).

(** [ctx.Request] and [ctx.Request.Context()]. *)
Definition getRequest : M (Http.Request Ctx) :=
  fun w => (Request (gin w), w).

Definition requestContext : M Ctx :=
  fun w => (reqContext (Request (gin w)), w).

(** [ginCtx.Request = r]. *)
Definition setRequest (r : Http.Request Ctx) : M unit :=
  fun w =>
    (tt, {| session := session w;
            gin := {| Writer := Writer (gin w); Request := r |};
            calls := calls w |}).

(** An operation on the response writer the Gin context refers to. *)
Definition onWriter (f : S -> ResponseWriter -> ResponseWriter) (ev : Call) : M unit :=
  fun w =>
    (tt, {| session := session w;
            gin := {| Writer := f (session w) (Writer (gin w));
                      Request := Request (gin w) |};
            calls := calls w ++ [ev] |}).

(** [w.Header().Add(key, value)]. *)
Definition HeaderAdd (key value : string) : M unit :=
  onWriter (fun _ => writer_Header_Add key value) (CHeaderAdd key value).

(** ** The adapter (scs_gin_adapter.go) *)

Record GinAdapter := { sm : SessionManager }.

Definition New (s : SessionManager) : GinAdapter := {| sm := s |}.

Section Methods.

Variable ga : GinAdapter.

Definition Load (c : Ctx) (token : string) : M (Ctx * option Err) :=
  smCall (sm_Load (sm ga) c token) (CLoad c token).

Definition Commit (c : Ctx) : M (string * Time * option Err) :=
  smCall (sm_Commit (sm ga) c) (CCommit c).

Definition WriteSessionCookie (c : Ctx) (token : string) (expiry : Time) : M unit :=
  onWriter (fun s w => sm_WriteSessionCookie (sm ga) c w token expiry s)
           (CWriteSessionCookie c token expiry).

Definition callErrorFunc (req : Http.Request Ctx) (e : Err) : M unit :=
  onWriter (fun _ w => ErrorFunc (sm ga) w req e) (CErrorFunc req e).

(** [ginCtx.Next()]: log the call and run the rest of the handler chain. *)
Definition Next (handlers : M unit) : M unit :=
  fun w =>
    handlers {| session := session w; gin := gin w; calls := calls w ++ [CNext] |}.

Definition LoadAndSave (handlers : M unit) : M unit :=
  req ← getRequest;
  let token :=
    match Request_Cookie req (Cookie_Name (sm ga)) with
    | Some cookie => Value cookie
    | None => ""
    end in
  '(ctx, err) ← Load (reqContext req) token;
  match err with
  | Some e => callErrorFunc req e
  | None =>
      let sessionReq := WithContext req ctx in
      HeaderAdd "Vary" "Cookie";;
      setRequest sessionReq;;
      Next handlers
  end.

Definition Put (key : string) (val : Val) : M unit :=
  c ← requestContext;
  smCall (sm_Put (sm ga) c key val) (fun _ => CPut c key val);;
  c ← requestContext;
  '(tok, exp, _) ← Commit c;
  c ← requestContext;
  WriteSessionCookie c tok exp.

Definition Get (key : string) : M Val :=
  c ← requestContext;
  val ← smCall (sm_Get (sm ga) c key) (CGet c key);
  c ← requestContext;
  Commit c;;
  mret val.

Definition Remove (key : string) : M unit :=
  c ← requestContext;
  smCall (sm_Remove (sm ga) c key) (fun _ => CRemove c key);;
  c ← requestContext;
  '(tok, exp, _) ← Commit c;
  c ← requestContext;
  WriteSessionCookie c tok exp.

Definition Destroy : M (option Err) :=
  c ← requestContext;
  err ← smCall (sm_Destroy (sm ga) c) (CDestroy c);
  match err with
  | Some e => mret (Some e)
  | None =>
      c ← requestContext;
      WriteSessionCookie c "" zeroTime;;
      mret None
  end.

Definition RenewToken : M (option Err) :=
  c ← requestContext;
  err ← smCall (sm_RenewToken (sm ga) c) (CRenewToken c);
  match err with
  | Some e => mret (Some e)
  | None =>
      c ← requestContext;
      '(tok, exp, _) ← Commit c;
      c ← requestContext;
      WriteSessionCookie c tok exp;;
      mret None
  end.

Definition RememberMe (val : bool) : M unit :=
  c ← requestContext;
  smCall (sm_RememberMe (sm ga) c val) (fun _ => CRememberMe c val);;
  c ← requestContext;
  '(tok, exp, _) ← Commit c;
  c ← requestContext;
  WriteSessionCookie c tok exp.

Definition GetString (key : string) : M string :=
  c ← requestContext;
  val ← smCall (sm_GetString (sm ga) c key) (CGetString c key);
  c ← requestContext;
  '(tok, exp, _) ← Commit c;
  c ← requestContext;
  WriteSessionCookie c tok exp;;
  mret val.

(** *** The accessors as one family

    A handler reaches the session through these seven methods; [invoke]
    dispatches a call to the method it names and wraps what the method
    returns. *)

Inductive Accessor :=
| APut (key : string) (val : Val)
| AGet (key : string)
| ARemove (key : string)
| ADestroy
| ARenewToken
| ARememberMe (val : bool)
| AGetString (key : string).

Inductive Result :=
| RNothing
| RValue (v : Val)
| RString (s : string)
| RError (e : option Err).

Definition invoke (a : Accessor) : M Result :=
  match a with
  | APut key val => Put key val;; mret RNothing
  | AGet key => v ← Get key; mret (RValue v)
  | ARemove key => Remove key;; mret RNothing
  | ADestroy => e ← Destroy; mret (RError e)
  | ARenewToken => e ← RenewToken; mret (RError e)
  | ARememberMe val => RememberMe val;; mret RNothing
  | AGetString key => s ← GetString key; mret (RString s)
  end.

(** The error a call hands back to the handler, [None] when the method
    has no error result or returned [nil]. *)
Definition returned_error (r : Result) : option Err :=
  match r with
  | RError e => e
  | _ => None
  end.

(** What the session manager's own operation hands back, before any
    commit: the value read by the getters, nothing for the others. *)
Definition primary_result (a : Accessor) (w : World) : Result :=
  let c := reqContext (Request (gin w)) in
  match a with
  | AGet key => RValue (fst (sm_Get (sm ga) c key (session w)))
  | AGetString key => RString (fst (sm_GetString (sm ga) c key (session w)))
  | ADestroy => RError (fst (sm_Destroy (sm ga) c (session w)))
  | ARenewToken => RError (fst (sm_RenewToken (sm ga) c (session w)))
  | APut _ _ | ARemove _ | ARememberMe _ => RNothing
  end.

End Methods.

(** The accessors the specification calls mutating (all but plain [Get]). *)
Definition mutating (a : Accessor) : bool :=
  match a with
  | AGet _ => false
  | _ => true
  end.

(** The accessors that have no error result and commit unconditionally. *)
Definition swallows_commit_error (a : Accessor) : bool :=
  match a with
  | APut _ _ | ARemove _ | AGet _ | ARememberMe _ => true
  | _ => false
  end.

(** The accessors of that kind that also write the cookie. *)
Definition commits_and_writes (a : Accessor) : bool :=
  match a with
  | APut _ _ | ARemove _ | ARememberMe _ | AGetString _ => true
  | _ => false
  end.

(** *** Reading the call log *)

Definition isErrorFunc (c : Call) : bool :=
  match c with CErrorFunc _ _ => true | _ => false end.

Definition isNext (c : Call) : bool :=
  match c with CNext => true | _ => false end.

Definition isHeaderAdd (c : Call) : bool :=
  match c with CHeaderAdd _ _ => true | _ => false end.

Definition isCommit (c : Call) : bool :=
  match c with CCommit _ _ => true | _ => false end.

Definition isFailedCommit (c : Call) : bool :=
  match c with CCommit _ (_, _, Some _) => true | _ => false end.

Definition isCookieWrite (c : Call) : bool :=
  match c with CWriteSessionCookie _ _ _ => true | _ => false end.


(** How often a kind of call occurs in a log. *)
Definition occurrences (p : Call -> bool) (l : list Call) : nat :=
  length (filter (fun c => p c = true) l).

(** The calls made on the way from world [w] to world [w']. *)
Definition issued (w w' : World) : list Call :=
  drop (length (calls w)) (calls w').

(** The token and expiry the session stands at according to the log: those
    of the last commit that succeeded, or the clearing pair after a
    successful destroy. *)
Definition session_cookie_step (acc : option (string * Time)) (c : Call)
  : option (string * Time) :=
  match c with
  | CCommit _ (tok, exp, None) => Some (tok, exp)
  | CDestroy _ None => Some (""%string, zeroTime)
  | _ => acc
  end.

Definition session_cookie (l : list Call) : option (string * Time) :=
  fold_left session_cookie_step l None.

(** The token and expiry of the last cookie write in the log. *)
Definition written_cookie_step (acc : option (string * Time)) (c : Call)
  : option (string * Time) :=
  match c with
  | CWriteSessionCookie _ tok exp => Some (tok, exp)
  | _ => acc
  end.

Definition written_cookie (l : list Call) : option (string * Time) :=
  fold_left written_cookie_step l None.

End Adapter.


(** ** A reference session manager *)

(** Modelled from the spec: the session-manager collaborator of section 6
    (load, commit, put, get, remove, destroy, renew, remember-me, cookie
    writing, error handler), which the repository imports and does not
    contain.  It is an in-memory manager serving one request: the session
    data the loaded context points to, a token supply, a clock, and a store
    that can be switched off to simulate store errors.  A failed commit
    returns the empty token and the zero time next to its error.  The
    adapter is run against it in the scenarios below. *)

Module RefSM.

Inductive Status := Unmodified | Modified | Destroyed.

Record sessionData := {
  token : string;
  deadline : nat;
  values : gmap string (option string);
  rememberMe : bool;
  status : Status
}.

Record state := {
  data : sessionData;
  store : gmap string (nat * gmap string (option string));
  storeUp : bool;
  clock : nat;
  minted : nat
}.

Definition lifetime : nat := 3600.

Definition cookieName : string := "session".

Definition persist : bool := true.

Definition storeError : string := "store unavailable".

Definition newSessionData (now : nat) : sessionData :=
  {| token := ""; deadline := now + lifetime; values := ∅;
     rememberMe := false; status := Unmodified |}.

Definition withData (s : state) (d : sessionData) : state :=
  {| data := d; store := store s; storeUp := storeUp s;
     clock := clock s; minted := minted s |}.

Definition generateToken (s : state) : string * state :=
  ("tok" +:+ pretty (minted s),
   {| data := data s; store := store s; storeUp := storeUp s;
      clock := clock s; minted := Datatypes.S (minted s) |}).

Definition Load (c : bool) (tok : string) (s : state) : (bool * option string) * state :=
  if String.eqb tok "" then
    ((true, None), withData s (newSessionData (clock s)))
  else if storeUp s then
    match store s !! tok with
    | Some (dl, vals) =>
        ((true, None),
         withData s {| token := tok; deadline := dl; values := vals;
                       rememberMe := false; status := Unmodified |})
    | None => ((true, None), withData s (newSessionData (clock s)))
    end
  else ((c, Some storeError), s).

Definition Commit (c : bool) (s : state) : (string * nat * option string) * state :=
  let s1 :=
    if String.eqb (token (data s)) "" then
      let (t, s') := generateToken s in
      withData s' {| token := t; deadline := deadline (data s);
                     values := values (data s);
                     rememberMe := rememberMe (data s);
                     status := status (data s) |}
    else s in
  if storeUp s1 then
    (token (data s1), deadline (data s1), None,
     {| data := data s1;
        store := <[token (data s1) := (deadline (data s1), values (data s1))]> (store s1);
        storeUp := storeUp s1; clock := clock s1; minted := minted s1 |})
  else ("", 0, Some storeError, s1).

Definition Put (c : bool) (key : string) (val : option string) (s : state) : unit * state :=
  (tt, withData s {| token := token (data s); deadline := deadline (data s);
                     values := <[key := val]> (values (data s));
                     rememberMe := rememberMe (data s);
                     status := Modified |}).

Definition Get (c : bool) (key : string) (s : state) : option string * state :=
  (default None (values (data s) !! key), s).

Definition GetString (c : bool) (key : string) (s : state) : string * state :=
  (default "" (default None (values (data s) !! key)), s).

Definition Remove (c : bool) (key : string) (s : state) : unit * state :=
  match values (data s) !! key with
  | None => (tt, s)
  | Some _ =>
      (tt, withData s {| token := token (data s); deadline := deadline (data s);
                         values := delete key (values (data s));
                         rememberMe := rememberMe (data s);
                         status := Modified |})
  end.

Definition Destroy (c : bool) (s : state) : option string * state :=
  if storeUp s then
    (None,
     {| data := {| token := ""; deadline := clock s + lifetime; values := ∅;
                   rememberMe := false; status := Destroyed |};
        store := delete (token (data s)) (store s);
        storeUp := storeUp s; clock := clock s; minted := minted s |})
  else (Some storeError, s).

Definition RenewToken (c : bool) (s : state) : option string * state :=
  if negb (String.eqb (token (data s)) "") && negb (storeUp s) then
    (Some storeError, s)
  else
    let (t, s') := generateToken s in
    (None,
     {| data := {| token := t; deadline := clock s + lifetime;
                   values := values (data s);
                   rememberMe := rememberMe (data s);
                   status := Modified |};
        store := delete (token (data s)) (store s');
        storeUp := storeUp s'; clock := clock s'; minted := minted s' |}).

Definition RememberMe (c : bool) (val : bool) (s : state) : unit * state :=
  (tt, withData s {| token := token (data s); deadline := deadline (data s);
                     values := values (data s);
                     rememberMe := val;
                     status := Modified |}).

(** The cookie line: a zero expiry asks the client to drop the cookie. *)
Definition cookieString (tok : string) (exp : nat) (keep : bool) : string :=
  cookieName +:+ "=" +:+ tok +:+ "; Path=/" +:+
  (if Nat.eqb exp 0 then "; Expires=Thu, 01 Jan 1970 00:00:01 GMT; Max-Age=0"
   else if keep then "; Expires=" +:+ pretty exp
   else "").

Definition WriteSessionCookie (c : bool) (w : ResponseWriter) (tok : string) (exp : nat)
  (s : state) : ResponseWriter :=
  writer_Header_Add "Set-Cookie"
    (cookieString tok exp (persist || rememberMe (data s))) w.

Definition defaultErrorFunc (w : ResponseWriter) (req : Http.Request bool) (e : string)
  : ResponseWriter :=
  {| header := header w; statusCode := Some 500; body := "Internal Server Error" |}.

Definition manager : @SessionManager bool (option string) string nat state :=
  {| Cookie_Name := cookieName;
     sm_Load := Load;
     sm_Commit := Commit;
     sm_Put := Put;
     sm_Get := Get;
     sm_GetString := GetString;
     sm_Remove := Remove;
     sm_Destroy := Destroy;
     sm_RenewToken := RenewToken;
     sm_RememberMe := RememberMe;
     sm_WriteSessionCookie := WriteSessionCookie;
     ErrorFunc := defaultErrorFunc |}.

Definition adapter : GinAdapter := New manager.

(** A request as it reaches the middleware, and the world it arrives in. *)
Definition request (cookies : list Cookie) : Http.Request bool :=
  {| reqContext := false; Cookies := cookies |}.

Definition blankWriter : ResponseWriter :=
  {| header := ∅; statusCode := None; body := "" |}.

Definition initialState (up : bool) : state :=
  {| data := newSessionData 1000; store := ∅; storeUp := up;
     clock := 1000; minted := 0 |}.

Definition arrival (cookies : list Cookie) (up : bool)
  : @World bool (option string) string nat state :=
  {| session := initialState up;
     gin := {| Writer := blankWriter; Request := request cookies |};
     calls := [] |}.

(** The store goes down (or comes back) in the middle of a request. *)
Definition setStoreUp (up : bool) (w : @World bool (option string) string nat state)
  : @World bool (option string) string nat state :=
  {| session := {| data := data (session w); store := store (session w);
                   storeUp := up; clock := clock (session w);
                   minted := minted (session w) |};
     gin := gin w; calls := calls w |}.

End RefSM.


(** ** Scenarios on the reference session manager *)

Module Scenario.

Abbreviation World := (@World bool (option string) string nat RefSM.state).

Definition adapter : GinAdapter := RefSM.adapter.

(** A handler chain that does nothing. *)
Definition noHandler : @M bool (option string) string nat RefSM.state unit :=
  fun w => (tt, w).

(** The world a handler finds after the middleware has loaded a fresh
    session for a request without cookies. *)
Definition loaded (up : bool) : World :=
  snd (LoadAndSave adapter noHandler (RefSM.arrival [] up)).

(** A request that presents a token while the store is down. *)
Definition staleArrival : World :=
  RefSM.arrival [{| Name := "session"; Value := "abc" |}] false.

(** A request that carries only a cookie of another name. *)
Definition strangerArrival : World :=
  RefSM.arrival [{| Name := "theme"; Value := "dark" |}] true.

(** The handler's world after [Put "foo" "bar"] on a fresh session, and that
    world once the store has gone down. *)
Definition afterPut : World :=
  snd (Put adapter "foo" (Some "bar") (loaded true)).

Definition afterOutage : World :=
  RefSM.setStoreUp false afterPut.

(** The cookie line that asks the client to drop the session cookie. *)
Definition clearingCookie : string := RefSM.cookieString "" 0 true.

(** A request that carries a cookie of another name and then two session
    cookies. *)
Definition crowdedArrival : World :=
  RefSM.arrival [{| Name := "theme"; Value := "dark" |};
                 {| Name := "session"; Value := "tokA" |};
                 {| Name := "session"; Value := "tokB" |}] true.

(** A handler body of four mutations, and one that writes and reads back. *)
Definition fourMutations : list (@Accessor (option string)) :=
  [APut "foo" (Some "bar"); ARememberMe true; ARemove "foo"; AGetString "foo"].

Definition writeAndRead : list (@Accessor (option string)) :=
  [APut "foo" (Some "bar"); AGet "foo"].

End Scenario.


(** ** Statements used below *)

Section Statements.

Context {Ctx Val Err Time S : Type}.
Variable zeroTime : Time.
Variable ga : @GinAdapter Ctx Val Err Time S.

(** The token a request presents: the value of its session cookie, or the
    empty string when it has none. *)
Definition presented_token (req : Http.Request Ctx) : string :=
  match Request_Cookie req (Cookie_Name (sm ga)) with
  | Some cookie => Value cookie
  | None => ""
  end.

(** The cookie invariant at one call: if the call hands no error back, the
    last cookie written carries the token and expiry the session stands at
    (last successful commit, or the clearing pair after a destroy). *)
Definition cookie_reflects_session (a : Accessor) (w : World) : Prop :=
  returned_error (fst (invoke zeroTime ga a w)) = None ->
  written_cookie (calls (snd (invoke zeroTime ga a w))) =
  session_cookie zeroTime (calls (snd (invoke zeroTime ga a w))).

(** The getter contract at one call: the value read is returned, and the
    session manager is then asked to commit and to write the cookie. *)
Definition getter_commits_and_writes (a : Accessor) (w : World) : Prop :=
  let c := reqContext (Request (gin w)) in
  fst (invoke zeroTime ga a w) = primary_result ga a w /\
  exists read r,
    issued w (snd (invoke zeroTime ga a w)) =
    [read; CCommit c r; CWriteSessionCookie c (fst (fst r)) (snd (fst r))].

(** What the adapter relies on for values to outlive a token renewal: a
    value put is the value read, and neither a commit nor a successful
    renewal changes what is read. *)
Record RetainsValues : Prop := {
  get_put : forall c key val s,
    fst (sm_Get (sm ga) c key (snd (sm_Put (sm ga) c key val s))) = val;
  get_commit : forall c key s,
    fst (sm_Get (sm ga) c key (snd (sm_Commit (sm ga) c s))) =
    fst (sm_Get (sm ga) c key s);
  get_renew : forall c key s,
    fst (sm_RenewToken (sm ga) c s) = None ->
    fst (sm_Get (sm ga) c key (snd (sm_RenewToken (sm ga) c s))) =
    fst (sm_Get (sm ga) c key s)
}.

End Statements.


(** ** Handlers and what their calls look like *)

Section Handlers.

Context {Ctx Val Err Time S : Type}.
Variable zeroTime : Time.
Variable ga : @GinAdapter Ctx Val Err Time S.

(** A handler body that calls the accessors of a list one after the other
    and drops what they return. *)
Fixpoint calling_all (l : list Accessor) : M unit :=
  match l with
  | [] => mret tt
  | a :: rest => invoke zeroTime ga a;; calling_all rest
  end.

(** The context a session-manager call was made with. *)
Definition call_context (c : @Call Ctx Val Err Time) : option Ctx :=
  match c with
  | CLoad c _ _ | CCommit c _ | CPut c _ _ | CGet c _ _ | CGetString c _ _
  | CRemove c _ | CDestroy c _ | CRenewToken c _ | CRememberMe c _
  | CWriteSessionCookie c _ _ => Some c
  | CErrorFunc _ _ | CHeaderAdd _ _ | CNext => None
  end.

(** The calls that only the middleware makes. *)
Definition isMiddlewareCall (c : @Call Ctx Val Err Time) : bool :=
  match c with
  | CLoad _ _ _ | CErrorFunc _ _ | CHeaderAdd _ _ | CNext => true
  | _ => false
  end.

(** A cookie write is justified by the call before it when that call is the
    Commit that returned its token and expiry, or a successful Destroy and the
    cookie is the clearing one; both made with the same context. *)
Definition justifies (prev : option (@Call Ctx Val Err Time))
    (c : Ctx) (tok : string) (exp : Time) : Prop :=
  match prev with
  | Some (CCommit c' (tok', exp', _)) => c = c' /\ tok = tok' /\ exp = exp'
  | Some (CDestroy c' None) => c = c' /\ tok = ""%string /\ exp = zeroTime
  | _ => False
  end.

Fixpoint cookie_writes_justified (prev : option (@Call Ctx Val Err Time))
    (l : list (@Call Ctx Val Err Time)) : Prop :=
  match l with
  | [] => True
  | x :: rest =>
      match x with
      | CWriteSessionCookie c tok exp => justifies prev c tok exp
      | _ => True
      end /\ cookie_writes_justified (Some x) rest
  end.

(** The same session manager with the error of every Commit erased. *)
Definition silenceCommit (s : @SessionManager Ctx Val Err Time S)
  : @SessionManager Ctx Val Err Time S :=
  {| Cookie_Name := Cookie_Name s;
     sm_Load := sm_Load s;
     sm_Commit := fun c st =>
       ((fst (fst (fst (sm_Commit s c st))), snd (fst (fst (sm_Commit s c st))), None),
        snd (sm_Commit s c st));
     sm_Put := sm_Put s;
     sm_Get := sm_Get s;
     sm_GetString := sm_GetString s;
     sm_Remove := sm_Remove s;
     sm_Destroy := sm_Destroy s;
     sm_RenewToken := sm_RenewToken s;
     sm_RememberMe := sm_RememberMe s;
     sm_WriteSessionCookie := sm_WriteSessionCookie s;
     ErrorFunc := ErrorFunc s |}.

End Handlers.


(** ** The renewal contract *)

Section Renewal.

Context {Ctx Val Err Time S : Type}.
Variable zeroTime : Time.
Variable ga : @GinAdapter Ctx Val Err Time S.

(** The success branch of the renewal contract at one call: when the
    session manager's RenewToken succeeds, the adapter's RenewToken returns
    nil, having committed and written a cookie that carries the token and
    expiry of that commit. *)
Definition renewal_writes_committed_cookie (w : World) : Prop :=
  fst (sm_RenewToken (sm ga) (reqContext (Request (gin w))) (session w)) = None ->
  fst (RenewToken ga w) = None /\
  exists tok exp,
    session_cookie zeroTime (issued w (snd (RenewToken ga w))) = Some (tok, exp) /\
    written_cookie (issued w (snd (RenewToken ga w))) = Some (tok, exp).

End Renewal.


(** ** Properties of the adapter, for any session manager *)

Section Properties.

Context {Ctx Val Err Time S : Type}.
Variable zeroTime : Time.
Variable ga : @GinAdapter Ctx Val Err Time S.

Local Abbreviation World := (@World Ctx Val Err Time S).
Local Abbreviation Call := (@Call Ctx Val Err Time).

(** *** The call log *)

Lemma issued_app (w w' : World) (l : list Call) :
  calls w' = calls w ++ l -> issued w w' = l.
Proof.
  intros H. unfold issued. rewrite H. apply drop_app_length.
Qed.

Lemma session_cookie_app (l l' : list Call) :
  session_cookie zeroTime (l ++ l') =
  fold_left (session_cookie_step zeroTime) l' (session_cookie zeroTime l).
Proof. unfold session_cookie. apply fold_left_app. Qed.

Lemma written_cookie_app (l l' : list Call) :
  written_cookie (l ++ l') = fold_left written_cookie_step l' (written_cookie l).
Proof. unfold written_cookie. apply fold_left_app. Qed.

(** *** The monad's equations *)

Lemma bind_run {A B} (m : M A) (f : A -> M B) (w : World) :
  (m ≫= f) w = f (fst (m w)) (snd (m w)).
Proof. unfold mbind, M_bind. destruct (m w); reflexivity. Qed.

Lemma ret_run {A} (a : A) (w : World) : (mret a : M A) w = (a, w).
Proof. reflexivity. Qed.

Lemma smCall_run {A} (op : S -> A * S) (ev : A -> Call) (w : World) :
  smCall op ev w =
  (fst (op (session w)),
   {| session := snd (op (session w)); gin := gin w;
      calls := calls w ++ [ev (fst (op (session w)))] |}).
Proof. unfold smCall. destruct (op (session w)); reflexivity. Qed.

Lemma triple_eta {A B C D} (p : A * B * C) (f : A -> B -> C -> D) :
  (let '(a, b, c) := p in f a b c) = f (fst (fst p)) (snd (fst p)) (snd p).
Proof. destruct p as [[a b] c]; reflexivity. Qed.

Lemma pair_eta {A B D} (p : A * B) (f : A -> B -> D) :
  (let '(a, b) := p in f a b) = f (fst p) (snd p).
Proof. destruct p; reflexivity. Qed.

Ltac run :=
  unfold invoke, Put, Get, Remove, Destroy, RenewToken, RememberMe, GetString,
    LoadAndSave, Load, Commit;
  repeat (progress (rewrite ?bind_run, ?ret_run, ?smCall_run, ?triple_eta, ?pair_eta;
                    unfold WriteSessionCookie, callErrorFunc, HeaderAdd, Next,
                      onWriter, setRequest, getRequest, requestContext;
                    cbn beta iota delta [session gin calls Writer Request fst snd]));
  rewrite <- ?app_assoc; cbn [app].

(** *** What a run of each method amounts to *)

Lemma Put_run (key : string) (val : Val) (w : World) :
  let c := reqContext (Request (gin w)) in
  let s1 := snd (sm_Put (sm ga) c key val (session w)) in
  let r := fst (sm_Commit (sm ga) c s1) in
  let s2 := snd (sm_Commit (sm ga) c s1) in
  Put ga key val w =
  (tt, {| session := s2;
          gin := {| Writer := sm_WriteSessionCookie (sm ga) c (Writer (gin w))
                                (fst (fst r)) (snd (fst r)) s2;
                    Request := Request (gin w) |};
          calls := calls w ++ [CPut c key val; CCommit c r;
                               CWriteSessionCookie c (fst (fst r)) (snd (fst r))] |}).
Proof.
  cbv zeta. run.
  reflexivity.
Qed.


Lemma Get_run (key : string) (w : World) :
  let c := reqContext (Request (gin w)) in
  let v := fst (sm_Get (sm ga) c key (session w)) in
  let s1 := snd (sm_Get (sm ga) c key (session w)) in
  Get ga key w =
  (v, {| session := snd (sm_Commit (sm ga) c s1);
         gin := gin w;
         calls := calls w ++ [CGet c key v; CCommit c (fst (sm_Commit (sm ga) c s1))] |}).
Proof. cbv zeta. run. reflexivity. Qed.

Lemma Remove_run (key : string) (w : World) :
  let c := reqContext (Request (gin w)) in
  let s1 := snd (sm_Remove (sm ga) c key (session w)) in
  let r := fst (sm_Commit (sm ga) c s1) in
  let s2 := snd (sm_Commit (sm ga) c s1) in
  Remove ga key w =
  (tt, {| session := s2;
          gin := {| Writer := sm_WriteSessionCookie (sm ga) c (Writer (gin w))
                                (fst (fst r)) (snd (fst r)) s2;
                    Request := Request (gin w) |};
          calls := calls w ++ [CRemove c key; CCommit c r;
                               CWriteSessionCookie c (fst (fst r)) (snd (fst r))] |}).
Proof. cbv zeta. run. reflexivity. Qed.

Lemma RememberMe_run (val : bool) (w : World) :
  let c := reqContext (Request (gin w)) in
  let s1 := snd (sm_RememberMe (sm ga) c val (session w)) in
  let r := fst (sm_Commit (sm ga) c s1) in
  let s2 := snd (sm_Commit (sm ga) c s1) in
  RememberMe ga val w =
  (tt, {| session := s2;
          gin := {| Writer := sm_WriteSessionCookie (sm ga) c (Writer (gin w))
                                (fst (fst r)) (snd (fst r)) s2;
                    Request := Request (gin w) |};
          calls := calls w ++ [CRememberMe c val; CCommit c r;
                               CWriteSessionCookie c (fst (fst r)) (snd (fst r))] |}).
Proof. cbv zeta. run. reflexivity. Qed.

Lemma GetString_run (key : string) (w : World) :
  let c := reqContext (Request (gin w)) in
  let v := fst (sm_GetString (sm ga) c key (session w)) in
  let s1 := snd (sm_GetString (sm ga) c key (session w)) in
  let r := fst (sm_Commit (sm ga) c s1) in
  let s2 := snd (sm_Commit (sm ga) c s1) in
  GetString ga key w =
  (v, {| session := s2;
         gin := {| Writer := sm_WriteSessionCookie (sm ga) c (Writer (gin w))
                               (fst (fst r)) (snd (fst r)) s2;
                   Request := Request (gin w) |};
         calls := calls w ++ [CGetString c key v; CCommit c r;
                              CWriteSessionCookie c (fst (fst r)) (snd (fst r))] |}).
Proof. cbv zeta. run. reflexivity. Qed.

Lemma Destroy_run (w : World) :
  let c := reqContext (Request (gin w)) in
  let err := fst (sm_Destroy (sm ga) c (session w)) in
  let s1 := snd (sm_Destroy (sm ga) c (session w)) in
  Destroy zeroTime ga w =
  match err with
  | Some e =>
      (Some e, {| session := s1; gin := gin w;
                  calls := calls w ++ [CDestroy c (Some e)] |})
  | None =>
      (None, {| session := s1;
                gin := {| Writer := sm_WriteSessionCookie (sm ga) c (Writer (gin w))
                                      "" zeroTime s1;
                          Request := Request (gin w) |};
                calls := calls w ++ [CDestroy c None;
                                     CWriteSessionCookie c "" zeroTime] |})
  end.
Proof.
  cbv zeta. run.
  destruct (fst (sm_Destroy (sm ga) (reqContext (Request (gin w))) (session w)));
    run; reflexivity.
Qed.

Lemma RenewToken_run (w : World) :
  let c := reqContext (Request (gin w)) in
  let err := fst (sm_RenewToken (sm ga) c (session w)) in
  let s1 := snd (sm_RenewToken (sm ga) c (session w)) in
  let r := fst (sm_Commit (sm ga) c s1) in
  let s2 := snd (sm_Commit (sm ga) c s1) in
  RenewToken ga w =
  match err with
  | Some e =>
      (Some e, {| session := s1; gin := gin w;
                  calls := calls w ++ [CRenewToken c (Some e)] |})
  | None =>
      (None, {| session := s2;
                gin := {| Writer := sm_WriteSessionCookie (sm ga) c (Writer (gin w))
                                      (fst (fst r)) (snd (fst r)) s2;
                          Request := Request (gin w) |};
                calls := calls w ++ [CRenewToken c None; CCommit c r;
                                     CWriteSessionCookie c (fst (fst r)) (snd (fst r))] |})
  end.
Proof.
  cbv zeta. run.
  destruct (fst (sm_RenewToken (sm ga) (reqContext (Request (gin w))) (session w)));
    run; reflexivity.
Qed.

Lemma LoadAndSave_run (handlers : M unit) (w : World) :
  let req := Request (gin w) in
  let token := presented_token ga req in
  let r := fst (sm_Load (sm ga) (reqContext req) token (session w)) in
  let s1 := snd (sm_Load (sm ga) (reqContext req) token (session w)) in
  LoadAndSave ga handlers w =
  match snd r with
  | Some e =>
      (tt, {| session := s1;
              gin := {| Writer := ErrorFunc (sm ga) (Writer (gin w)) req e;
                        Request := req |};
              calls := calls w ++ [CLoad (reqContext req) token r; CErrorFunc req e] |})
  | None =>
      handlers {| session := s1;
                  gin := {| Writer := writer_Header_Add "Vary" "Cookie" (Writer (gin w));
                            Request := WithContext req (fst r) |};
                  calls := calls w ++ [CLoad (reqContext req) token r;
                                       CHeaderAdd "Vary" "Cookie"; CNext] |}
  end.
Proof.
  cbv zeta. unfold presented_token. run.
  match goal with |- context [sm_Load ?a ?b ?c ?d] => destruct (sm_Load a b c d) as [[c' [e|]] s1] end;
    run; reflexivity.
Qed.


(** *** The middleware *)

(** C5. When the session manager's Load fails, LoadAndSave calls the
    configured error handler exactly once, with the response writer, the
    request and the error, and returns: Next is not called, the request (and
    so its context) is the one that came in, and no header is added by the
    middleware (the writer is exactly what the error handler made of it). *)
Theorem LoadAndSave_load_failure (handlers : M unit) (w : World)
    (c' : Ctx) (e : Err) (s1 : S) :
  sm_Load (sm ga) (reqContext (Request (gin w)))
    (presented_token ga (Request (gin w))) (session w) = ((c', Some e), s1) ->
  let req := Request (gin w) in
  let token := presented_token ga req in
  let w' := snd (LoadAndSave ga handlers w) in
  calls w' = calls w ++ [CLoad (reqContext req) token (c', Some e); CErrorFunc req e] /\
  occurrences isErrorFunc (issued w w') = 1 /\
  occurrences isNext (issued w w') = 0 /\
  occurrences isHeaderAdd (issued w w') = 0 /\
  Request (gin w') = req /\
  Writer (gin w') = ErrorFunc (sm ga) (Writer (gin w)) req e /\
  session w' = s1.
Proof.
  intros HLoad req token w'. subst w' req token.
  rewrite LoadAndSave_run. rewrite HLoad.
  cbn [fst snd session gin calls Writer Request].
  erewrite issued_app by reflexivity.
  repeat split.
Qed.

(** C6. A request without a session cookie is not an error in itself: Load
    is called with the empty token, and what follows depends on Load alone.
    When Load accepts the empty token, the context it returns is attached
    and the handler runs. *)
Theorem LoadAndSave_no_cookie (handlers : M unit) (w : World) :
  Request_Cookie (Request (gin w)) (Cookie_Name (sm ga)) = None ->
  let req := Request (gin w) in
  let r := fst (sm_Load (sm ga) (reqContext req) "" (session w)) in
  let s1 := snd (sm_Load (sm ga) (reqContext req) "" (session w)) in
  LoadAndSave ga handlers w =
  match snd r with
  | None =>
      handlers {| session := s1;
                  gin := {| Writer := writer_Header_Add "Vary" "Cookie" (Writer (gin w));
                            Request := WithContext req (fst r) |};
                  calls := calls w ++ [CLoad (reqContext req) "" r;
                                       CHeaderAdd "Vary" "Cookie"; CNext] |}
  | Some e =>
      (tt, {| session := s1;
              gin := {| Writer := ErrorFunc (sm ga) (Writer (gin w)) req e;
                        Request := req |};
              calls := calls w ++ [CLoad (reqContext req) "" r; CErrorFunc req e] |})
  end.
Proof.
  intros Hnone req r s1. subst r s1 req.
  rewrite LoadAndSave_run.
  unfold presented_token. rewrite Hnone.
  destruct (snd (fst (sm_Load (sm ga) (reqContext (Request (gin w))) "" (session w))));
    reflexivity.
Qed.

(** C7. When Load succeeds, LoadAndSave hands the handler chain a world in
    which the request carries the context Load returned and the response has
    one more value, Cookie, under Vary; the log shows Load, the header
    addition and Next in that order.  Nothing else of the request or of the
    response writer differs from what came in, and LoadAndSave does nothing
    after the chain returns. *)
Theorem LoadAndSave_load_success (handlers : M unit) (w : World) (c' : Ctx) (s1 : S) :
  sm_Load (sm ga) (reqContext (Request (gin w)))
    (presented_token ga (Request (gin w))) (session w) = ((c', None), s1) ->
  let req := Request (gin w) in
  let token := presented_token ga req in
  exists w1,
    LoadAndSave ga handlers w = handlers w1 /\
    calls w1 = calls w ++ [CLoad (reqContext req) token (c', None);
                           CHeaderAdd "Vary" "Cookie"; CNext] /\
    session w1 = s1 /\
    reqContext (Request (gin w1)) = c' /\
    Cookies (Request (gin w1)) = Cookies req /\
    header (Writer (gin w1)) !! "Vary" =
      Some (default [] (header (Writer (gin w)) !! "Vary") ++ ["Cookie"]) /\
    (forall k : string, k <> "Vary" ->
       header (Writer (gin w1)) !! k = header (Writer (gin w)) !! k) /\
    statusCode (Writer (gin w1)) = statusCode (Writer (gin w)) /\
    body (Writer (gin w1)) = body (Writer (gin w)).
Proof.
  intros HLoad req token. subst req token.
  eexists. split.
  - rewrite LoadAndSave_run. rewrite HLoad.
    cbn [fst snd]. reflexivity.
  - cbn [session gin calls Writer Request].
    repeat split.
    + unfold writer_Header_Add, Header_Add. cbn [header].
      apply lookup_insert_eq.
    + intros k Hk. unfold writer_Header_Add, Header_Add. cbn [header].
      apply lookup_insert_ne. congruence.
Qed.


(** *** Destroy and RenewToken *)

(** C3. Destroy follows the outcome of the session manager's Destroy.  If
    that fails, its error is returned and the Gin context, response writer
    included, is untouched: no cookie is written.  If it succeeds, the
    cookie-writing routine is called with the empty token and the zero time,
    and nil is returned. *)
Theorem Destroy_writes_cookie_only_on_success (w : World) :
  let c := reqContext (Request (gin w)) in
  let err := fst (sm_Destroy (sm ga) c (session w)) in
  let s1 := snd (sm_Destroy (sm ga) c (session w)) in
  let r := fst (Destroy zeroTime ga w) in
  let w' := snd (Destroy zeroTime ga w) in
  session w' = s1 /\
  match err with
  | Some e =>
      r = Some e /\
      gin w' = gin w /\
      calls w' = calls w ++ [CDestroy c (Some e)] /\
      occurrences isCookieWrite (issued w w') = 0
  | None =>
      r = None /\
      Writer (gin w') = sm_WriteSessionCookie (sm ga) c (Writer (gin w)) "" zeroTime s1 /\
      Request (gin w') = Request (gin w) /\
      calls w' = calls w ++ [CDestroy c None; CWriteSessionCookie c "" zeroTime] /\
      written_cookie (calls w') = Some (""%string, zeroTime)
  end.
Proof.
  cbv zeta. rewrite Destroy_run.
  destruct (fst (sm_Destroy (sm ga) (reqContext (Request (gin w))) (session w)));
    cbn [fst snd session gin calls Writer Request].
  - erewrite issued_app by reflexivity. repeat split.
  - rewrite written_cookie_app. repeat split.
Qed.

(** RenewToken follows the outcome of the session manager's RenewToken.
    If that fails, its error is returned, Commit is not called and the Gin
    context is untouched: no cookie is written.  If it succeeds, Commit is
    called, the cookie-writing routine is called with the token and expiry
    Commit returned, whether or not that Commit failed, and nil is
    returned. *)
Theorem RenewToken_commits_only_on_success (w : World) :
  let c := reqContext (Request (gin w)) in
  let err := fst (sm_RenewToken (sm ga) c (session w)) in
  let s1 := snd (sm_RenewToken (sm ga) c (session w)) in
  let r := fst (RenewToken ga w) in
  let w' := snd (RenewToken ga w) in
  match err with
  | Some e =>
      r = Some e /\
      session w' = s1 /\
      gin w' = gin w /\
      calls w' = calls w ++ [CRenewToken c (Some e)] /\
      occurrences isCommit (issued w w') = 0 /\
      occurrences isCookieWrite (issued w w') = 0
  | None =>
      let committed := fst (sm_Commit (sm ga) c s1) in
      let tok := fst (fst committed) in
      let exp := snd (fst committed) in
      r = None /\
      session w' = snd (sm_Commit (sm ga) c s1) /\
      Writer (gin w') = sm_WriteSessionCookie (sm ga) c (Writer (gin w)) tok exp (session w') /\
      Request (gin w') = Request (gin w) /\
      calls w' = calls w ++ [CRenewToken c None; CCommit c committed;
                             CWriteSessionCookie c tok exp] /\
      written_cookie (calls w') = Some (tok, exp)
  end.
Proof.
  cbv zeta. rewrite RenewToken_run.
  destruct (fst (sm_RenewToken (sm ga) (reqContext (Request (gin w))) (session w)));
    cbn [fst snd session gin calls Writer Request].
  - erewrite issued_app by reflexivity. repeat split.
  - rewrite written_cookie_app. repeat split.
Qed.


(** *** The accessors and the commit they end with *)

Ltac run_invoke :=
  unfold invoke; rewrite bind_run, ret_run;
  rewrite ?Put_run, ?Get_run, ?Remove_run, ?RememberMe_run, ?GetString_run,
    ?Destroy_run, ?RenewToken_run;
  cbn [fst snd session gin calls Writer Request].

Ltac case_outcome :=
  match goal with
  | |- context [match fst ?x with Some _ => _ | None => _ end] =>
      destruct (fst x) as [?e|]
  end.

Ltac case_commit :=
  match goal with
  | |- context [sm_Commit ?g ?c ?s] =>
      destruct (sm_Commit g c s) as [[[?tok ?exp] [?cerr|]] ?s2]
  | H : context [sm_Commit ?g ?c ?s] |- _ =>
      destruct (sm_Commit g c s) as [[[?tok ?exp] [?cerr|]] ?s2]
  end;
  cbn [fst snd] in *.

(** C1, as amended.  For every mutating accessor that hands no error back
    and whose own Commit, if it made one, did not fail, the last cookie
    written carries the token and expiry the session stands at (those of the
    last successful commit, or the clearing pair after a destroy), and the
    response writer is what the cookie-writing routine made of the incoming
    one with that token and expiry. *)
Theorem cookie_reflects_session_when_commit_succeeds (a : Accessor) (w : World) :
  mutating a = true ->
  existsb isFailedCommit (issued w (snd (invoke zeroTime ga a w))) = false ->
  cookie_reflects_session zeroTime ga a w /\
  (returned_error (fst (invoke zeroTime ga a w)) = None ->
   exists tok exp,
     session_cookie zeroTime (calls (snd (invoke zeroTime ga a w))) = Some (tok, exp) /\
     Writer (gin (snd (invoke zeroTime ga a w))) =
     sm_WriteSessionCookie (sm ga) (reqContext (Request (gin w))) (Writer (gin w))
       tok exp (session (snd (invoke zeroTime ga a w)))).
Proof.
  unfold cookie_reflects_session.
  destruct a as [key val|key|key| | |val|key]; cbn [mutating]; intros Hm; try discriminate Hm;
    run_invoke.
  all: try case_outcome.
  all: cbn [fst snd session gin calls Writer Request returned_error].
  all: erewrite issued_app by reflexivity.
  all: rewrite ?written_cookie_app, ?session_cookie_app.
  all: try case_commit.
  all: cbn; intros Hc; try discriminate Hc.
  all: split; [ intros Hr; try discriminate Hr; reflexivity
              | intros Hr; try discriminate Hr; eauto ].
Qed.


(** C8. Put, Remove, Get and RememberMe swallow a failure of their Commit:
    the call still hands back exactly what the session manager's own
    operation gave (the value read, for Get; nothing for the others), no
    error value reaches the handler, and the error handler is not called. *)
Theorem commit_failure_is_swallowed (a : Accessor) (w : World) :
  swallows_commit_error a = true ->
  existsb isFailedCommit (issued w (snd (invoke zeroTime ga a w))) = true ->
  fst (invoke zeroTime ga a w) = primary_result ga a w /\
  returned_error (fst (invoke zeroTime ga a w)) = None /\
  occurrences isErrorFunc (issued w (snd (invoke zeroTime ga a w))) = 0.
Proof.
  destruct a as [key val|key|key| | |val|key]; cbn [swallows_commit_error];
    intros Hs; try discriminate Hs; intros _; run_invoke.
  all: erewrite issued_app by reflexivity.
  all: repeat split.
Qed.


(** *** The two getters *)

(** Get reads and commits, and leaves the Gin context, response writer
    included, as it was: the cookie-writing routine is not called. *)
Lemma Get_commits_without_writing (key : string) (w : World) :
  let c := reqContext (Request (gin w)) in
  let w' := snd (Get ga key w) in
  fst (Get ga key w) = fst (sm_Get (sm ga) c key (session w)) /\
  gin w' = gin w /\
  occurrences isCommit (issued w w') = 1 /\
  occurrences isCookieWrite (issued w w') = 0.
Proof.
  cbv zeta. rewrite Get_run. cbn [fst snd session gin calls].
  erewrite issued_app by reflexivity. repeat split.
Qed.

(** GetString reads, commits and has the cookie written. *)
Lemma GetString_commits_and_writes (key : string) (w : World) :
  getter_commits_and_writes zeroTime ga (AGetString key) w.
Proof.
  unfold getter_commits_and_writes. run_invoke.
  erewrite issued_app by reflexivity. split; [reflexivity | eauto].
Qed.

(** *** Values across a token renewal *)

(** C9. With a session manager that retains values (what is put is what is
    read; commits and successful renewals do not change what is read), a Put
    followed by a RenewToken that returns nil leaves the value readable: Get
    returns it.  The cookie in force at that point is the one RenewToken
    wrote, with the token its Commit returned. *)
Theorem value_survives_token_renewal (key : string) (val : Val) (w : World) :
  RetainsValues ga ->
  fst (RenewToken ga (snd (Put ga key val w))) = None ->
  let w1 := snd (Put ga key val w) in
  let w2 := snd (RenewToken ga w1) in
  fst (Get ga key w2) = val /\
  exists tok exp cerr,
    let c := reqContext (Request (gin w)) in
    calls w2 = calls w1 ++ [CRenewToken c None; CCommit c (tok, exp, cerr);
                            CWriteSessionCookie c tok exp] /\
    written_cookie (calls w2) = Some (tok, exp).
Proof.
  intros [Hput Hcommit Hrenew]. cbv zeta.
  rewrite Put_run. cbn [snd].
  rewrite RenewToken_run. cbn [fst snd session gin calls Writer Request].
  match goal with
  | |- context [match fst ?x with Some _ => _ | None => _ end] =>
      destruct (fst x) as [e|] eqn:Hr
  end; cbn [fst snd session gin calls Writer Request]; intros Hnil; [discriminate Hnil|].
  split.
  - rewrite Get_run. cbn [fst snd session gin calls Writer Request].
    rewrite Hcommit, (Hrenew _ _ _ Hr), Hcommit. apply Hput.
  - match goal with
    | |- context [CRenewToken _ None :: CCommit _ (fst ?x) :: _] =>
        destruct (fst x) as [[tok exp] cerr]
    end.
    exists tok, exp, cerr. cbn [fst snd].
    rewrite !written_cookie_app. split; reflexivity.
Qed.


(** *** One accessor call, seen from the request *)

Lemma invoke_extends (a : Accessor) (w : World) :
  calls (snd (invoke zeroTime ga a w)) =
  calls w ++ issued w (snd (invoke zeroTime ga a w)).
Proof.
  destruct a; run_invoke; try case_outcome;
    cbn [fst snd session gin calls Writer Request];
    erewrite issued_app by reflexivity; reflexivity.
Qed.

Lemma invoke_keeps_request (a : Accessor) (w : World) :
  Request (gin (snd (invoke zeroTime ga a w))) = Request (gin w).
Proof.
  destruct a; run_invoke; try case_outcome; reflexivity.
Qed.

Lemma invoke_uses_request_context (a : Accessor) (w : World) :
  Forall (fun c => call_context c = Some (reqContext (Request (gin w))))
         (issued w (snd (invoke zeroTime ga a w))).
Proof.
  destruct a; run_invoke; try case_outcome;
    cbn [fst snd session gin calls Writer Request];
    erewrite issued_app by reflexivity;
    repeat constructor.
Qed.

Lemma invoke_makes_no_middleware_call (a : Accessor) (w : World) :
  Forall (fun c => isMiddlewareCall c = false)
         (issued w (snd (invoke zeroTime ga a w))).
Proof.
  destruct a; run_invoke; try case_outcome;
    cbn [fst snd session gin calls Writer Request];
    erewrite issued_app by reflexivity;
    repeat constructor.
Qed.

Lemma invoke_justifies_cookie_writes (a : Accessor) (w : World) :
  cookie_writes_justified zeroTime None (issued w (snd (invoke zeroTime ga a w))).
Proof.
  destruct a; run_invoke; try case_outcome;
    cbn [fst snd session gin calls Writer Request];
    erewrite issued_app by reflexivity;
    try case_commit; cbn; repeat split.
Qed.

(** X1. An accessor call stays within the request it is given: it leaves the
    Gin context's request (context and cookies) as it was, makes every
    session-manager call with that request's context, and makes none of the
    middleware's calls (Load, the error handler, Header().Add, Next), also
    when Destroy or RenewToken fail. *)
Theorem accessor_stays_within_request (a : Accessor) (w : World) :
  Request (gin (snd (invoke zeroTime ga a w))) = Request (gin w) /\
  Forall (fun c => call_context c = Some (reqContext (Request (gin w))))
         (issued w (snd (invoke zeroTime ga a w))) /\
  Forall (fun c => isMiddlewareCall c = false)
         (issued w (snd (invoke zeroTime ga a w))) /\
  issued w (snd (invoke zeroTime ga a w)) <> [].
Proof.
  split; [apply invoke_keeps_request|].
  split; [apply invoke_uses_request_context|].
  split; [apply invoke_makes_no_middleware_call|].
  destruct a; run_invoke; try case_outcome;
    cbn [fst snd session gin calls Writer Request];
    erewrite issued_app by reflexivity; discriminate.
Qed.

(** X2. The only error an accessor hands back is the one the session
    manager's Destroy or RenewToken returned on the incoming state; an error
    of Commit is never returned. *)
Theorem accessor_error_comes_from_destroy_or_renew (a : Accessor) (w : World) (e : Err) :
  returned_error (fst (invoke zeroTime ga a w)) = Some e ->
  (a = ADestroy /\
   fst (sm_Destroy (sm ga) (reqContext (Request (gin w))) (session w)) = Some e) \/
  (a = ARenewToken /\
   fst (sm_RenewToken (sm ga) (reqContext (Request (gin w))) (session w)) = Some e).
Proof.
  destruct a; run_invoke; cbn [returned_error]; try discriminate.
  - destruct (fst (sm_Destroy (sm ga) (reqContext (Request (gin w))) (session w)))
      as [e'|] eqn:Hd; cbn [fst returned_error]; intros H; [|discriminate H].
    left. split; [reflexivity | exact H].
  - destruct (fst (sm_RenewToken (sm ga) (reqContext (Request (gin w))) (session w)))
      as [e'|] eqn:Hd; cbn [fst returned_error]; intros H; [|discriminate H].
    right. split; [reflexivity | exact H].
Qed.


(** *** Handlers that call several accessors *)

Lemma calling_all_cons (a : Accessor) (l : list Accessor) (w : World) :
  calling_all zeroTime ga (a :: l) w =
  calling_all zeroTime ga l (snd (invoke zeroTime ga a w)).
Proof. cbn [calling_all]. rewrite bind_run. reflexivity. Qed.

Lemma issued_trans (w w1 w2 : World) :
  calls w1 = calls w ++ issued w w1 ->
  calls w2 = calls w1 ++ issued w1 w2 ->
  calls w2 = calls w ++ issued w w2 /\
  issued w w2 = issued w w1 ++ issued w1 w2.
Proof.
  intros H1 H2.
  assert (H : calls w2 = calls w ++ (issued w w1 ++ issued w1 w2))
    by (rewrite H2, H1 at 1; rewrite <- app_assoc; reflexivity).
  rewrite (issued_app w w2 _ H). split; [exact H | reflexivity].
Qed.

Lemma calling_all_extends (l : list Accessor) (w : World) :
  calls (snd (calling_all zeroTime ga l w)) =
  calls w ++ issued w (snd (calling_all zeroTime ga l w)).
Proof.
  revert w. induction l as [|a l IH]; intros w.
  - cbn [calling_all]. rewrite ret_run. cbn [snd].
    unfold issued. rewrite drop_all. symmetry. apply app_nil_r.
  - rewrite calling_all_cons.
    apply (issued_trans w (snd (invoke zeroTime ga a w))); [apply invoke_extends | apply IH].
Qed.

Lemma calling_all_issued_cons (a : Accessor) (l : list Accessor) (w : World) :
  issued w (snd (calling_all zeroTime ga (a :: l) w)) =
  issued w (snd (invoke zeroTime ga a w)) ++
  issued (snd (invoke zeroTime ga a w))
         (snd (calling_all zeroTime ga l (snd (invoke zeroTime ga a w)))).
Proof.
  rewrite calling_all_cons.
  apply (issued_trans w (snd (invoke zeroTime ga a w))); [apply invoke_extends|].
  apply calling_all_extends.
Qed.

Lemma calling_all_nil_issued (w : World) :
  issued w (snd (calling_all zeroTime ga [] w)) = [].
Proof.
  cbn [calling_all]. rewrite ret_run. cbn [snd]. unfold issued. apply drop_all.
Qed.

Lemma cookie_writes_justified_weaken (prev : option Call) (l : list Call) :
  cookie_writes_justified zeroTime None l -> cookie_writes_justified zeroTime prev l.
Proof.
  destruct l as [|x l]; [trivial|]. cbn [cookie_writes_justified].
  intros [Hx Hl]. split; [|exact Hl].
  destruct x; try exact I. destruct Hx.
Qed.

Lemma cookie_writes_justified_app (prev : option Call) (l1 l2 : list Call) :
  cookie_writes_justified zeroTime prev l1 ->
  cookie_writes_justified zeroTime None l2 ->
  cookie_writes_justified zeroTime prev (l1 ++ l2).
Proof.
  revert prev. induction l1 as [|x l1 IH]; intros prev H1 H2.
  - apply cookie_writes_justified_weaken. exact H2.
  - cbn [app cookie_writes_justified] in *. destruct H1 as [Hx H1].
    split; [exact Hx | apply IH; assumption].
Qed.

Lemma calling_all_within_request (l : list Accessor) (w : World) :
  Request (gin (snd (calling_all zeroTime ga l w))) = Request (gin w) /\
  Forall (fun c => call_context c = Some (reqContext (Request (gin w))))
         (issued w (snd (calling_all zeroTime ga l w))) /\
  Forall (fun c => isMiddlewareCall c = false)
         (issued w (snd (calling_all zeroTime ga l w))).
Proof.
  revert w. induction l as [|a l IH]; intros w.
  - rewrite calling_all_nil_issued. cbn [calling_all]. rewrite ret_run.
    repeat split; constructor.
  - rewrite calling_all_issued_cons. rewrite calling_all_cons.
    destruct (IH (snd (invoke zeroTime ga a w))) as (Hreq & Hctx & Hmw).
    rewrite invoke_keeps_request in Hreq, Hctx.
    split; [exact Hreq|]. split; apply Forall_app; split;
      auto using invoke_uses_request_context, invoke_makes_no_middleware_call.
Qed.

(** X7. A handler that calls any number of accessors stays within the
    request: at the end the Gin context's request is the one it started
    with, every call it issued carries that request's context, and none of
    them is a call of the middleware. *)
Theorem handler_stays_within_request (l : list Accessor) (w : World) :
  Request (gin (snd (calling_all zeroTime ga l w))) = Request (gin w) /\
  Forall (fun c => call_context c = Some (reqContext (Request (gin w))))
         (issued w (snd (calling_all zeroTime ga l w))) /\
  Forall (fun c => isMiddlewareCall c = false)
         (issued w (snd (calling_all zeroTime ga l w))).
Proof.
  revert w. induction l as [|a l IH]; intros w.
  - rewrite calling_all_nil_issued. cbn [calling_all]. rewrite ret_run.
    split; [reflexivity | split; constructor].
  - rewrite calling_all_issued_cons, calling_all_cons.
    destruct (IH (snd (invoke zeroTime ga a w))) as (Hreq & Hctx & Hmw).
    rewrite invoke_keeps_request in Hreq, Hctx.
    split; [exact Hreq|].
    split; apply Forall_app; split; try assumption.
    + apply invoke_uses_request_context.
    + apply invoke_makes_no_middleware_call.
Qed.

Lemma calling_all_justifies_cookie_writes (l : list Accessor) (w : World) :
  cookie_writes_justified zeroTime None (issued w (snd (calling_all zeroTime ga l w))).
Proof.
  revert w. induction l as [|a l IH]; intros w.
  - rewrite calling_all_nil_issued. exact I.
  - rewrite calling_all_issued_cons.
    apply cookie_writes_justified_app; [apply invoke_justifies_cookie_writes | apply IH].
Qed.

(** X8. Whatever accessors a handler calls, every cookie write it issues
    comes right after the call that justifies it: the Commit whose token and
    expiry it carries, or a successful Destroy for the clearing cookie.  The
    adapter never writes a cookie with a token from anywhere else. *)
Theorem cookie_writes_are_justified (l : list Accessor) (w : World) :
  cookie_writes_justified zeroTime None (issued w (snd (calling_all zeroTime ga l w))).
Proof.
  revert w. induction l as [|a l IH]; intros w.
  - rewrite calling_all_nil_issued. exact I.
  - rewrite calling_all_issued_cons.
    apply cookie_writes_justified_app.
    + apply invoke_justifies_cookie_writes.
    + apply IH.
Qed.

Lemma occurrences_app (p : Call -> bool) (l1 l2 : list Call) :
  occurrences p (l1 ++ l2) = occurrences p l1 + occurrences p l2.
Proof. unfold occurrences. rewrite filter_app. apply length_app. Qed.

(** X9. A handler that calls only Put, Remove, RememberMe and GetString
    commits once and writes one cookie per call: n calls issue n Commits and
    n cookie writes, with no batching. *)
Theorem every_mutation_commits_and_writes_once (l : list Accessor) (w : World) :
  forallb commits_and_writes l = true ->
  occurrences isCommit (issued w (snd (calling_all zeroTime ga l w))) = length l /\
  occurrences isCookieWrite (issued w (snd (calling_all zeroTime ga l w))) = length l.
Proof.
  revert w. induction l as [|a l IH]; intros w Hl.
  - rewrite calling_all_nil_issued. split; reflexivity.
  - cbn [forallb] in Hl. apply andb_prop in Hl. destruct Hl as [Ha Hl].
    rewrite calling_all_issued_cons, !occurrences_app.
    destruct (IH (snd (invoke zeroTime ga a w)) Hl) as [Hc Hw]. rewrite Hc, Hw.
    cbn [length].
    assert (H1 : occurrences isCommit (issued w (snd (invoke zeroTime ga a w))) = 1 /\
                 occurrences isCookieWrite (issued w (snd (invoke zeroTime ga a w))) = 1).
    { destruct a; cbn [commits_and_writes] in Ha; try discriminate Ha; run_invoke;
        erewrite issued_app by reflexivity; split; reflexivity. }
    destruct H1 as [H1 H2]. rewrite H1, H2. split; reflexivity.
Qed.

(** X4. A handler that only reads with Get commits once per call and never
    touches the Gin context: the response writer and the request at the end
    are those it started with, so no cookie is written. *)
Theorem reads_with_Get_leave_response_untouched (keys : list string) (w : World) :
  let l := map (fun key => AGet (Val := Val) key) keys in
  gin (snd (calling_all zeroTime ga l w)) = gin w /\
  occurrences isCommit (issued w (snd (calling_all zeroTime ga l w))) = length keys /\
  occurrences isCookieWrite (issued w (snd (calling_all zeroTime ga l w))) = 0.
Proof.
  cbv zeta. revert w. induction keys as [|key keys IH]; intros w.
  - cbn [map]. rewrite calling_all_nil_issued. cbn [calling_all]. rewrite ret_run.
    repeat split.
  - cbn [map]. rewrite calling_all_issued_cons, !occurrences_app, calling_all_cons.
    destruct (IH (snd (invoke zeroTime ga (AGet key) w))) as (Hg & Hc & Hw).
    rewrite Hg, Hc, Hw. run_invoke.
    erewrite issued_app by reflexivity. repeat split.
Qed.


(** *** More on the middleware and on reads *)

Lemma find_first_match {A} (p : A -> bool) (before after : list A) (k : A) :
  forallb (fun c => negb (p c)) before = true ->
  p k = true ->
  find p (before ++ k :: after) = Some k.
Proof.
  intros Hb Hk. induction before as [|c before IH]; cbn [app find].
  - rewrite Hk. reflexivity.
  - cbn [forallb] in Hb. apply andb_prop in Hb. destruct Hb as [Hc Hb].
    apply negb_true_iff in Hc. rewrite Hc. apply IH. exact Hb.
Qed.

(** X5. When the request carries session cookies, the token passed to Load
    is the value of the first cookie with the configured name: cookies of
    other names before it and any cookie after it, of that name or not, are
    ignored.  Load receives the request's own context. *)
Theorem LoadAndSave_first_cookie_wins (handlers : M unit) (w : World)
    (before after : list Cookie) (k : Cookie) :
  Cookies (Request (gin w)) = before ++ k :: after ->
  forallb (fun c => negb (String.eqb (Name c) (Cookie_Name (sm ga)))) before = true ->
  String.eqb (Name k) (Cookie_Name (sm ga)) = true ->
  let req := Request (gin w) in
  let r := fst (sm_Load (sm ga) (reqContext req) (Value k) (session w)) in
  let s1 := snd (sm_Load (sm ga) (reqContext req) (Value k) (session w)) in
  LoadAndSave ga handlers w =
  match snd r with
  | None =>
      handlers {| session := s1;
                  gin := {| Writer := writer_Header_Add "Vary" "Cookie" (Writer (gin w));
                            Request := WithContext req (fst r) |};
                  calls := calls w ++ [CLoad (reqContext req) (Value k) r;
                                       CHeaderAdd "Vary" "Cookie"; CNext] |}
  | Some e =>
      (tt, {| session := s1;
              gin := {| Writer := ErrorFunc (sm ga) (Writer (gin w)) req e;
                        Request := req |};
              calls := calls w ++ [CLoad (reqContext req) (Value k) r;
                                   CErrorFunc req e] |})
  end.
Proof.
  intros Hcookies Hbefore Hk. cbv zeta.
  rewrite LoadAndSave_run. unfold presented_token, Request_Cookie.
  rewrite Hcookies, (find_first_match _ before after k Hbefore Hk).
  destruct (snd (fst (sm_Load (sm ga) (reqContext (Request (gin w))) (Value k) (session w))));
    reflexivity.
Qed.

(** X6. With a session manager for which a value put is the value read and
    a commit does not change what is read, Get after Put of the same key
    returns the value put, whether or not the commits succeed. *)
Theorem Put_then_Get_returns_value (key : string) (val : Val) (w : World) :
  (forall c k v s, fst (sm_Get (sm ga) c k (snd (sm_Put (sm ga) c k v s))) = v) ->
  (forall c k s, fst (sm_Get (sm ga) c k (snd (sm_Commit (sm ga) c s))) =
                 fst (sm_Get (sm ga) c k s)) ->
  fst (Get ga key (snd (Put ga key val w))) = val.
Proof.
  intros Hput Hcommit.
  rewrite Put_run. cbn [snd]. rewrite Get_run.
  cbn [fst snd session gin calls Writer Request].
  rewrite Hcommit. apply Hput.
Qed.

(** X10. In a request whose Load succeeds, a handler that calls accessors
    works on the loaded session: the log is Load, the Vary header, Next,
    and then the handler's calls, each made with the context Load returned;
    at the end the request still carries that context. *)
Theorem loaded_context_reaches_handler (l : list Accessor) (w : World) (c' : Ctx) (s1 : S) :
  sm_Load (sm ga) (reqContext (Request (gin w)))
    (presented_token ga (Request (gin w))) (session w) = ((c', None), s1) ->
  let w' := snd (LoadAndSave ga (calling_all zeroTime ga l) w) in
  exists made,
    calls w' = calls w ++ [CLoad (reqContext (Request (gin w)))
                             (presented_token ga (Request (gin w))) (c', None);
                           CHeaderAdd "Vary" "Cookie"; CNext] ++ made /\
    Forall (fun c => call_context c = Some c') made /\
    Forall (fun c => isMiddlewareCall c = false) made /\
    cookie_writes_justified zeroTime None made /\
    Request (gin w') = WithContext (Request (gin w)) c'.
Proof.
  intros HLoad. cbv zeta.
  rewrite LoadAndSave_run, HLoad. cbn [fst snd].
  match goal with |- context [calling_all zeroTime ga l ?w1] => set (wh := w1) end.
  exists (issued wh (snd (calling_all zeroTime ga l wh))).
  destruct (calling_all_within_request l wh) as (Hreq & Hctx & Hmw).
  split; [|split; [exact Hctx | split; [exact Hmw | split; [|exact Hreq]]]].
  - rewrite calling_all_extends. subst wh. cbn [calls].
    rewrite <- app_assoc. reflexivity.
  - apply calling_all_justifies_cookie_writes.
Qed.


(** C4, as amended.  If the session manager's RenewToken fails, RenewToken
    returns its error without committing and without writing a cookie.  If
    it succeeds and the Commit that follows does not fail, RenewToken returns
    nil, having committed and written a cookie that carries the token and
    expiry of that commit. *)
Theorem RenewToken_writes_cookie_of_successful_commit (w : World) :
  existsb isFailedCommit (issued w (snd (RenewToken ga w))) = false ->
  let c := reqContext (Request (gin w)) in
  let err := fst (sm_RenewToken (sm ga) c (session w)) in
  let s1 := snd (sm_RenewToken (sm ga) c (session w)) in
  let r := fst (RenewToken ga w) in
  let w' := snd (RenewToken ga w) in
  match err with
  | Some e =>
      r = Some e /\
      session w' = s1 /\
      gin w' = gin w /\
      calls w' = calls w ++ [CRenewToken c (Some e)] /\
      occurrences isCommit (issued w w') = 0 /\
      occurrences isCookieWrite (issued w w') = 0
  | None =>
      exists tok exp,
        fst (sm_Commit (sm ga) c s1) = (tok, exp, None) /\
        r = None /\
        session w' = snd (sm_Commit (sm ga) c s1) /\
        Writer (gin w') =
          sm_WriteSessionCookie (sm ga) c (Writer (gin w)) tok exp (session w') /\
        Request (gin w') = Request (gin w) /\
        calls w' = calls w ++ [CRenewToken c None; CCommit c (tok, exp, None);
                               CWriteSessionCookie c tok exp] /\
        session_cookie zeroTime (calls w') = Some (tok, exp) /\
        written_cookie (calls w') = Some (tok, exp)
  end /\
  renewal_writes_committed_cookie zeroTime ga w.
Proof.
  unfold renewal_writes_committed_cookie. cbv zeta. rewrite RenewToken_run.
  destruct (fst (sm_RenewToken (sm ga) (reqContext (Request (gin w))) (session w)))
    as [e|]; cbn [fst snd session gin calls Writer Request];
    erewrite !issued_app by reflexivity.
  - intros _. split; [repeat split | intros H; discriminate H].
  - destruct (sm_Commit (sm ga) (reqContext (Request (gin w)))
                (snd (sm_RenewToken (sm ga) (reqContext (Request (gin w))) (session w))))
      as [[[tok exp] [cerr|]] s2]; cbn [fst snd]; cbn [existsb isFailedCommit orb];
      intros Hc; [discriminate Hc|].
    split.
    + exists tok, exp.
      rewrite session_cookie_app, written_cookie_app. repeat split.
    + intros _. split; [reflexivity|]. exists tok, exp. split; reflexivity.
Qed.

End Properties.


(** ** The reference session manager retains values *)

Lemma RefSM_retains_values : RetainsValues Scenario.adapter.
Proof.
  split; cbn [sm Scenario.adapter RefSM.adapter New RefSM.manager
              sm_Get sm_Put sm_Commit sm_RenewToken].
  - intros c key val s. unfold RefSM.Get, RefSM.Put, RefSM.withData. cbn.
    by rewrite lookup_insert_eq.
  - intros c key s. unfold RefSM.Get, RefSM.Commit, RefSM.generateToken, RefSM.withData.
    destruct (String.eqb (RefSM.token (RefSM.data s)) ""); cbn;
      destruct (RefSM.storeUp s); reflexivity.
  - intros c key s. unfold RefSM.Get, RefSM.RenewToken, RefSM.generateToken.
    destruct (negb (String.eqb (RefSM.token (RefSM.data s)) "") && negb (RefSM.storeUp s));
      cbn; [discriminate | reflexivity].
Qed.


(** ** The adapter on the reference session manager *)

(** A request presents the token abc while the store is down: Load fails,
    the error handler answers 500, the handler chain is not entered and no
    Vary header appears. *)
Lemma LoadAndSave_load_failure_witness :
  sm_Load (sm Scenario.adapter) (reqContext (Request (gin Scenario.staleArrival)))
    (presented_token Scenario.adapter (Request (gin Scenario.staleArrival)))
    (session Scenario.staleArrival)
  = ((false, Some RefSM.storeError), RefSM.initialState false) /\
  calls (snd (LoadAndSave Scenario.adapter Scenario.noHandler Scenario.staleArrival)) =
    [CLoad false "abc" (false, Some RefSM.storeError);
     CErrorFunc (Request (gin Scenario.staleArrival)) RefSM.storeError] /\
  statusCode (Writer (gin (snd (LoadAndSave Scenario.adapter Scenario.noHandler
                                  Scenario.staleArrival)))) = Some 500 /\
  header (Writer (gin (snd (LoadAndSave Scenario.adapter Scenario.noHandler
                              Scenario.staleArrival)))) !! "Vary" = None.
Proof.
  assert (H : sm_Load (sm Scenario.adapter)
                (reqContext (Request (gin Scenario.staleArrival)))
                (presented_token Scenario.adapter (Request (gin Scenario.staleArrival)))
                (session Scenario.staleArrival)
              = ((false, Some RefSM.storeError), RefSM.initialState false))
    by reflexivity.
  split; [exact H|].
  destruct (LoadAndSave_load_failure Scenario.adapter Scenario.noHandler
              Scenario.staleArrival false RefSM.storeError (RefSM.initialState false) H)
    as (Hcalls & _ & _ & _ & _ & Hwriter & _).
  split; [exact Hcalls|].
  rewrite Hwriter. split; reflexivity.
Defined.

(** A request that carries only a cookie named theme: Load is called with
    the empty token, the fresh context is attached, Vary is set and the
    handler chain is entered. *)
Lemma LoadAndSave_no_cookie_witness :
  Request_Cookie (Request (gin Scenario.strangerArrival)) (Cookie_Name (sm Scenario.adapter))
  = None /\
  calls (snd (LoadAndSave Scenario.adapter Scenario.noHandler Scenario.strangerArrival)) =
    [CLoad false "" (true, None); CHeaderAdd "Vary" "Cookie"; CNext] /\
  reqContext (Request (gin (snd (LoadAndSave Scenario.adapter Scenario.noHandler
                                   Scenario.strangerArrival)))) = true.
Proof.
  assert (H : Request_Cookie (Request (gin Scenario.strangerArrival))
                (Cookie_Name (sm Scenario.adapter)) = None) by reflexivity.
  split; [exact H|].
  rewrite (LoadAndSave_no_cookie Scenario.adapter Scenario.noHandler
             Scenario.strangerArrival H).
  split; reflexivity.
Defined.

(** A request without cookies and a working store: the handler chain is
    entered with the loaded context attached and Vary: Cookie set. *)
Lemma LoadAndSave_load_success_witness :
  sm_Load (sm Scenario.adapter) (reqContext (Request (gin (RefSM.arrival [] true))))
    (presented_token Scenario.adapter (Request (gin (RefSM.arrival [] true))))
    (session (RefSM.arrival [] true))
  = ((true, None), RefSM.initialState true) /\
  exists w1,
    LoadAndSave Scenario.adapter Scenario.noHandler (RefSM.arrival [] true)
    = Scenario.noHandler w1 /\
    calls w1 = [CLoad false "" (true, None); CHeaderAdd "Vary" "Cookie"; CNext] /\
    reqContext (Request (gin w1)) = true /\
    header (Writer (gin w1)) !! "Vary" = Some ["Cookie"].
Proof.
  assert (H : sm_Load (sm Scenario.adapter)
                (reqContext (Request (gin (RefSM.arrival [] true))))
                (presented_token Scenario.adapter (Request (gin (RefSM.arrival [] true))))
                (session (RefSM.arrival [] true))
              = ((true, None), RefSM.initialState true)) by reflexivity.
  split; [exact H|].
  destruct (LoadAndSave_load_success Scenario.adapter Scenario.noHandler
              (RefSM.arrival [] true) true (RefSM.initialState true) H)
    as (w1 & Hrun & Hcalls & _ & Hctx & _ & Hvary & _).
  exists w1. repeat split; [exact Hrun | exact Hcalls | exact Hctx | exact Hvary].
Defined.

(** Put on a fresh session with a working store: the commit mints tok0 and
    the cookie written carries it. *)
Lemma cookie_reflects_session_witness :
  mutating (APut "foo" (Some "bar")) = true /\
  existsb isFailedCommit
    (issued (Scenario.loaded true)
       (snd (invoke 0 Scenario.adapter (APut "foo" (Some "bar")) (Scenario.loaded true))))
  = false /\
  cookie_reflects_session 0 Scenario.adapter (APut "foo" (Some "bar")) (Scenario.loaded true) /\
  session_cookie 0
    (calls (snd (invoke 0 Scenario.adapter (APut "foo" (Some "bar")) (Scenario.loaded true))))
  = Some ("tok0", 4600).
Proof.
  assert (Hm : mutating (APut "foo" (Some "bar")) = true) by reflexivity.
  assert (Hc : existsb isFailedCommit
                 (issued (Scenario.loaded true)
                    (snd (invoke 0 Scenario.adapter (APut "foo" (Some "bar"))
                            (Scenario.loaded true)))) = false) by reflexivity.
  split; [exact Hm|]. split; [exact Hc|].
  split.
  - exact (proj1 (cookie_reflects_session_when_commit_succeeds 0 Scenario.adapter
                    (APut "foo" (Some "bar")) (Scenario.loaded true) Hm Hc)).
  - reflexivity.
Defined.

(** C1, as stated, fails.  After Put "foo" "bar" has committed under tok0,
    the store goes down; a second Put returns (it has no error result), the
    session still stands at tok0 and is not destroyed, and yet the last
    cookie written is the clearing one. *)
Lemma failed_commit_breaks_cookie_invariant :
  mutating (APut "a" (Some "b")) = true /\
  returned_error (fst (invoke 0 Scenario.adapter (APut "a" (Some "b")) Scenario.afterOutage))
  = None /\
  session_cookie 0
    (calls (snd (invoke 0 Scenario.adapter (APut "a" (Some "b")) Scenario.afterOutage)))
  = Some ("tok0", 4600) /\
  written_cookie
    (calls (snd (invoke 0 Scenario.adapter (APut "a" (Some "b")) Scenario.afterOutage)))
  = Some ("", 0) /\
  RefSM.status (RefSM.data (session
    (snd (invoke 0 Scenario.adapter (APut "a" (Some "b")) Scenario.afterOutage))))
  = RefSM.Modified /\
  last (default [] (header (Writer (gin
    (snd (invoke 0 Scenario.adapter (APut "a" (Some "b")) Scenario.afterOutage))))
    !! "Set-Cookie"))
  = Some Scenario.clearingCookie /\
  ~ cookie_reflects_session 0 Scenario.adapter (APut "a" (Some "b")) Scenario.afterOutage.
Proof.
  repeat split; try reflexivity.
  unfold cookie_reflects_session. intros H.
  specialize (H eq_refl). vm_compute in H. discriminate H.
Qed.

(** Get "foo" once the store has gone down: the commit fails, and the call
    still hands back bar. *)
Lemma commit_failure_is_swallowed_witness :
  swallows_commit_error (AGet (Val := option string) "foo") = true /\
  existsb isFailedCommit
    (issued Scenario.afterOutage
       (snd (invoke 0 Scenario.adapter (AGet "foo") Scenario.afterOutage))) = true /\
  fst (invoke 0 Scenario.adapter (AGet "foo") Scenario.afterOutage) = RValue (Some "bar").
Proof.
  assert (Hs : swallows_commit_error (AGet (Val := option string) "foo") = true)
    by reflexivity.
  assert (Hc : existsb isFailedCommit
                 (issued Scenario.afterOutage
                    (snd (invoke 0 Scenario.adapter (AGet "foo") Scenario.afterOutage)))
               = true) by reflexivity.
  split; [exact Hs|]. split; [exact Hc|].
  rewrite (proj1 (commit_failure_is_swallowed 0 Scenario.adapter (AGet "foo")
                    Scenario.afterOutage Hs Hc)).
  reflexivity.
Defined.


(** Put "foo" "bar", then RenewToken, then Get "foo", store working: the
    value read is bar and the cookie in force carries the new token tok1. *)
Lemma value_survives_token_renewal_witness :
  RetainsValues Scenario.adapter /\
  fst (RenewToken Scenario.adapter
         (snd (Put Scenario.adapter "foo" (Some "bar") (Scenario.loaded true)))) = None /\
  fst (Get Scenario.adapter "foo"
         (snd (RenewToken Scenario.adapter
                 (snd (Put Scenario.adapter "foo" (Some "bar") (Scenario.loaded true))))))
  = Some "bar" /\
  written_cookie
    (calls (snd (RenewToken Scenario.adapter
                   (snd (Put Scenario.adapter "foo" (Some "bar") (Scenario.loaded true))))))
  = Some ("tok1", 4600).
Proof.
  assert (Hr : fst (RenewToken Scenario.adapter
                      (snd (Put Scenario.adapter "foo" (Some "bar") (Scenario.loaded true))))
               = None) by reflexivity.
  split; [exact RefSM_retains_values|]. split; [exact Hr|].
  split.
  - exact (proj1 (value_survives_token_renewal Scenario.adapter "foo" (Some "bar")
                    (Scenario.loaded true) RefSM_retains_values Hr)).
  - reflexivity.
Defined.

(** C2 at a failing input.  Get "foo" on a freshly loaded session: the value
    read (nil) is returned and the commit stores the session under the newly
    minted tok0, but the cookie-writing routine is not called: the response
    has no Set-Cookie header, so the getter contract does not hold for Get. *)
Theorem Get_on_fresh_session_writes_no_cookie :
  fst (Get Scenario.adapter "foo" (Scenario.loaded true)) = None /\
  issued (Scenario.loaded true) (snd (Get Scenario.adapter "foo" (Scenario.loaded true)))
  = [CGet true "foo" None; CCommit true ("tok0", 4600, None)] /\
  RefSM.store (session (snd (Get Scenario.adapter "foo" (Scenario.loaded true)))) !! "tok0"
  = Some (4600, ∅) /\
  header (Writer (gin (snd (Get Scenario.adapter "foo" (Scenario.loaded true)))))
    !! "Set-Cookie" = None /\
  ~ getter_commits_and_writes 0 Scenario.adapter (AGet "foo") (Scenario.loaded true).
Proof.
  repeat split; try reflexivity.
  unfold getter_commits_and_writes. intros [_ (read & r & H)].
  vm_compute in H. discriminate H.
Qed.

(** The same request with GetString: the cookie carrying tok0 is written. *)
Example GetString_on_fresh_session_writes_cookie :
  fst (GetString Scenario.adapter "foo" (Scenario.loaded true)) = ""%string /\
  header (Writer (gin (snd (GetString Scenario.adapter "foo" (Scenario.loaded true)))))
    !! "Set-Cookie" = Some [RefSM.cookieString "tok0" 4600 true].
Proof. split; reflexivity. Qed.

(** Destroy with the store down returns the error and leaves the response
    as it was; with the store up it appends the clearing cookie. *)
Example Destroy_on_reference_manager :
  fst (Destroy 0 Scenario.adapter Scenario.afterOutage) = Some RefSM.storeError /\
  Writer (gin (snd (Destroy 0 Scenario.adapter Scenario.afterOutage)))
  = Writer (gin Scenario.afterOutage) /\
  fst (Destroy 0 Scenario.adapter Scenario.afterPut) = None /\
  header (Writer (gin (snd (Destroy 0 Scenario.adapter Scenario.afterPut)))) !! "Set-Cookie"
  = Some [RefSM.cookieString "tok0" 4600 true; Scenario.clearingCookie].
Proof. repeat split; reflexivity. Qed.

(** RenewToken with the store down returns the error, commits nothing and
    leaves the response as it was. *)
Example RenewToken_on_reference_manager :
  fst (RenewToken Scenario.adapter Scenario.afterOutage) = Some RefSM.storeError /\
  gin (snd (RenewToken Scenario.adapter Scenario.afterOutage)) = gin Scenario.afterOutage /\
  issued Scenario.afterOutage (snd (RenewToken Scenario.adapter Scenario.afterOutage))
  = [CRenewToken true (Some RefSM.storeError)].
Proof. repeat split; reflexivity. Qed.


(** ** Commit errors and the accessors *)

(** X3. No accessor looks at the error of Commit: run against the same
    session manager with every Commit error erased, each accessor hands back
    the same result and leaves the same session state and the same Gin
    context, response writer included. *)
Theorem commit_error_is_never_observed {Ctx Val Err Time S : Type} (zeroTime : Time)
    (ga : @GinAdapter Ctx Val Err Time S) (a : Accessor) (w : World) :
  fst (invoke zeroTime ga a w) = fst (invoke zeroTime (New (silenceCommit (sm ga))) a w) /\
  session (snd (invoke zeroTime ga a w)) =
  session (snd (invoke zeroTime (New (silenceCommit (sm ga))) a w)) /\
  gin (snd (invoke zeroTime ga a w)) =
  gin (snd (invoke zeroTime (New (silenceCommit (sm ga))) a w)).
Proof.
  destruct a; unfold invoke; rewrite !bind_run, !ret_run;
    rewrite ?Put_run, ?Get_run, ?Remove_run, ?RememberMe_run, ?GetString_run,
      ?Destroy_run, ?RenewToken_run;
    cbn [sm New silenceCommit sm_Commit sm_Put sm_Get sm_GetString sm_Remove
         sm_Destroy sm_RenewToken sm_RememberMe sm_WriteSessionCookie
         fst snd session gin calls Writer Request].
  1-3, 6-7: repeat split.
  - destruct (fst (sm_Destroy (sm ga) (reqContext (Request (gin w))) (session w)));
      repeat split.
  - destruct (fst (sm_RenewToken (sm ga) (reqContext (Request (gin w))) (session w)));
      repeat split.
Qed.


(** ** More scenarios on the reference session manager *)

(** Destroy with the store down: the error handed back is the one the
    session manager's Destroy returned. *)
Lemma accessor_error_comes_from_destroy_or_renew_witness :
  returned_error (fst (invoke 0 Scenario.adapter ADestroy Scenario.afterOutage))
  = Some RefSM.storeError /\
  fst (sm_Destroy (sm Scenario.adapter) (reqContext (Request (gin Scenario.afterOutage)))
         (session Scenario.afterOutage)) = Some RefSM.storeError.
Proof.
  assert (H : returned_error (fst (invoke 0 Scenario.adapter ADestroy Scenario.afterOutage))
              = Some RefSM.storeError) by reflexivity.
  split; [exact H|].
  destruct (accessor_error_comes_from_destroy_or_renew 0 Scenario.adapter ADestroy
              Scenario.afterOutage RefSM.storeError H) as [[_ Hd]|[Hr _]].
  - exact Hd.
  - discriminate Hr.
Defined.

(** A request with the cookies theme=dark, session=tokA, session=tokB: Load
    is called with tokA. *)
Lemma LoadAndSave_first_cookie_wins_witness :
  Cookies (Request (gin Scenario.crowdedArrival)) =
    [{| Name := "theme"; Value := "dark" |}] ++
    {| Name := "session"; Value := "tokA" |} :: [{| Name := "session"; Value := "tokB" |}] /\
  forallb (fun c => negb (String.eqb (Name c) (Cookie_Name (sm Scenario.adapter))))
    [{| Name := "theme"; Value := "dark" |}] = true /\
  String.eqb (Name {| Name := "session"; Value := "tokA" |})
    (Cookie_Name (sm Scenario.adapter)) = true /\
  calls (snd (LoadAndSave Scenario.adapter Scenario.noHandler Scenario.crowdedArrival)) =
    [CLoad false "tokA" (true, None); CHeaderAdd "Vary" "Cookie"; CNext].
Proof.
  assert (H1 : Cookies (Request (gin Scenario.crowdedArrival)) =
                 [{| Name := "theme"; Value := "dark" |}] ++
                 {| Name := "session"; Value := "tokA" |}
                 :: [{| Name := "session"; Value := "tokB" |}]) by reflexivity.
  assert (H2 : forallb (fun c => negb (String.eqb (Name c)
                                         (Cookie_Name (sm Scenario.adapter))))
                 [{| Name := "theme"; Value := "dark" |}] = true) by reflexivity.
  assert (H3 : String.eqb (Name {| Name := "session"; Value := "tokA" |})
                 (Cookie_Name (sm Scenario.adapter)) = true) by reflexivity.
  split; [exact H1|]. split; [exact H2|]. split; [exact H3|].
  rewrite (LoadAndSave_first_cookie_wins Scenario.adapter Scenario.noHandler
             Scenario.crowdedArrival _ _ _ H1 H2 H3).
  reflexivity.
Defined.

(** Put "a" "b" and then Get "a" while the store is down: both commits fail
    and the value read is b. *)
Lemma Put_then_Get_returns_value_witness :
  (forall c k v s,
     fst (sm_Get (sm Scenario.adapter) c k (snd (sm_Put (sm Scenario.adapter) c k v s))) = v) /\
  (forall c k s,
     fst (sm_Get (sm Scenario.adapter) c k (snd (sm_Commit (sm Scenario.adapter) c s))) =
     fst (sm_Get (sm Scenario.adapter) c k s)) /\
  existsb isFailedCommit
    (issued Scenario.afterOutage
       (snd (Get Scenario.adapter "a"
               (snd (Put Scenario.adapter "a" (Some "b") Scenario.afterOutage))))) = true /\
  fst (Get Scenario.adapter "a"
         (snd (Put Scenario.adapter "a" (Some "b") Scenario.afterOutage))) = Some "b".
Proof.
  split; [exact (get_put _ RefSM_retains_values)|].
  split; [exact (get_commit _ RefSM_retains_values)|].
  split; [reflexivity|].
  exact (Put_then_Get_returns_value Scenario.adapter "a" (Some "b") Scenario.afterOutage
           (get_put _ RefSM_retains_values) (get_commit _ RefSM_retains_values)).
Defined.

(** Put, RememberMe, Remove and GetString in one handler: four commits and
    four cookie writes, so four Set-Cookie lines in the response. *)
Lemma every_mutation_commits_and_writes_once_witness :
  forallb commits_and_writes Scenario.fourMutations = true /\
  occurrences isCookieWrite
    (issued (Scenario.loaded true)
       (snd (calling_all 0 Scenario.adapter Scenario.fourMutations (Scenario.loaded true))))
  = 4 /\
  length (default [] (header (Writer (gin
    (snd (calling_all 0 Scenario.adapter Scenario.fourMutations (Scenario.loaded true)))))
    !! "Set-Cookie")) = 4.
Proof.
  assert (H : forallb commits_and_writes Scenario.fourMutations = true) by reflexivity.
  split; [exact H|].
  split.
  - exact (proj2 (every_mutation_commits_and_writes_once 0 Scenario.adapter
                    Scenario.fourMutations (Scenario.loaded true) H)).
  - reflexivity.
Defined.

(** A request without cookies whose handler puts foo and reads it back: all
    the handler's calls are made with the loaded context. *)
Lemma loaded_context_reaches_handler_witness :
  sm_Load (sm Scenario.adapter) (reqContext (Request (gin (RefSM.arrival [] true))))
    (presented_token Scenario.adapter (Request (gin (RefSM.arrival [] true))))
    (session (RefSM.arrival [] true))
  = ((true, None), RefSM.initialState true) /\
  calls (snd (LoadAndSave Scenario.adapter
                (calling_all 0 Scenario.adapter Scenario.writeAndRead)
                (RefSM.arrival [] true))) =
    [CLoad false "" (true, None); CHeaderAdd "Vary" "Cookie"; CNext;
     CPut true "foo" (Some "bar"); CCommit true ("tok0", 4600, None);
     CWriteSessionCookie true "tok0" 4600;
     CGet true "foo" (Some "bar"); CCommit true ("tok0", 4600, None)] /\
  reqContext (Request (gin (snd (LoadAndSave Scenario.adapter
                                   (calling_all 0 Scenario.adapter Scenario.writeAndRead)
                                   (RefSM.arrival [] true))))) = true.
Proof.
  assert (H : sm_Load (sm Scenario.adapter)
                (reqContext (Request (gin (RefSM.arrival [] true))))
                (presented_token Scenario.adapter (Request (gin (RefSM.arrival [] true))))
                (session (RefSM.arrival [] true))
              = ((true, None), RefSM.initialState true)) by reflexivity.
  split; [exact H|].
  destruct (loaded_context_reaches_handler 0 Scenario.adapter Scenario.writeAndRead
              (RefSM.arrival [] true) true (RefSM.initialState true) H)
    as (made & _ & _ & _ & _ & Hreq).
  split; [reflexivity|].
  rewrite Hreq. reflexivity.
Defined.


(** ** Renewal on the reference session manager *)

(** RenewToken after Put "foo" "bar", store working: the renewal mints tok1,
    the commit stores the session under it and the cookie written carries
    it. *)
Lemma RenewToken_writes_cookie_of_successful_commit_witness :
  existsb isFailedCommit
    (issued Scenario.afterPut (snd (RenewToken Scenario.adapter Scenario.afterPut))) = false /\
  fst (RenewToken Scenario.adapter Scenario.afterPut) = None /\
  written_cookie (calls (snd (RenewToken Scenario.adapter Scenario.afterPut)))
  = Some ("tok1", 4600) /\
  RefSM.token (RefSM.data (session (snd (RenewToken Scenario.adapter Scenario.afterPut))))
  = "tok1"%string /\
  renewal_writes_committed_cookie 0 Scenario.adapter Scenario.afterPut.
Proof.
  assert (H : existsb isFailedCommit
                (issued Scenario.afterPut
                   (snd (RenewToken Scenario.adapter Scenario.afterPut))) = false)
    by reflexivity.
  split; [exact H|].
  destruct (RenewToken_writes_cookie_of_successful_commit 0 Scenario.adapter
              Scenario.afterPut H) as [_ Hcontract].
  split; [reflexivity|]. split; [reflexivity|]. split; [reflexivity|].
  exact Hcontract.
Defined.

(** C4, as stated, fails.  On a freshly loaded session with the store down
    the session manager's RenewToken succeeds (there is no old entry to
    delete) and mints tok0; the Commit that follows fails; RenewToken returns
    nil all the same, and the cookie it writes is the clearing one, not one
    carrying tok0. *)
Lemma RenewToken_with_failed_commit_clears_cookie :
  fst (sm_RenewToken (sm Scenario.adapter)
         (reqContext (Request (gin (Scenario.loaded false))))
         (session (Scenario.loaded false))) = None /\
  fst (RenewToken Scenario.adapter (Scenario.loaded false)) = None /\
  issued (Scenario.loaded false) (snd (RenewToken Scenario.adapter (Scenario.loaded false)))
  = [CRenewToken true None; CCommit true ("", 0, Some RefSM.storeError);
     CWriteSessionCookie true "" 0] /\
  RefSM.token (RefSM.data (session
    (snd (RenewToken Scenario.adapter (Scenario.loaded false))))) = "tok0"%string /\
  header (Writer (gin (snd (RenewToken Scenario.adapter (Scenario.loaded false)))))
    !! "Set-Cookie" = Some [Scenario.clearingCookie] /\
  ~ renewal_writes_committed_cookie 0 Scenario.adapter (Scenario.loaded false).
Proof.
  repeat split; try reflexivity.
  unfold renewal_writes_committed_cookie. intros H.
  destruct (H eq_refl) as [_ (tok & exp & Hs & _)].
  vm_compute in Hs. discriminate Hs.
Qed.
